(** * Kernel API of smcroute (src/kern.c): join/leave multicast groups and
    add/delete multicast forwarding-cache entries.

    Shallow embedding.  The C code talks to the outside world through
    [setsockopt] (the kernel), [errno], [smclog] (logging) and the
    [mrdisc_enable] / [mrdisc_disable] collaborators.  All of these are
    recorded, in program order, in one trace of events threaded through a
    small state monad; the kernel's answer to a socket option request is a
    parameter of the development. *)

From Stdlib Require Import ZArith List String Ascii Bool Lia.
Import ListNotations.
Open Scope string_scope.
Open Scope list_scope.
Open Scope Z_scope.

(** ** Data model *)

(** A [struct sockaddr_storage], tagged by its address family, holding the
    raw 32-bit (IPv4) or 128-bit (IPv6) address. *)
Inductive sockaddr : Type :=
| AF_INET (a : Z)
| AF_INET6 (a : Z).

Definition is_inet6 (s : sockaddr) : bool :=
  match s with AF_INET6 _ => true | AF_INET _ => false end.

(** Modelled from the spec: [is_anyaddr] (util.c, not in src/) is the
    Address Codec's [is_any]: true when the address is the all-zeros
    "unspecified" value. *)
Definition is_anyaddr (s : sockaddr) : bool :=
  match s with AF_INET a | AF_INET6 a => a =? 0 end.

(** Modelled from the spec: [inet_addr_get] / [inet_addr6_get] (util.c, not
    in src/) are the Address Codec's [to_wire]: the raw address value of the
    family, as placed in the kernel structures. *)
Definition inet_addr_get (s : sockaddr) : Z :=
  match s with AF_INET a | AF_INET6 a => a end.

Definition inet_addr6_get (s : sockaddr) : Z :=
  match s with AF_INET a | AF_INET6 a => a end.

(** [struct iface] (only the fields kern.c reads). *)
Record iface : Type := mkIface {
  ifindex : Z;
  inaddr  : Z
}.

(** [struct mcgroup]. *)
Record mcgroup : Type := mkMcgroup {
  mcg_iface  : iface;
  mcg_source : sockaddr;
  mcg_group  : sockaddr;
  mcg_len    : Z
}.

(** [struct mroute]: the caller's (logical) outbound TTL vector is the array
    [ttl], of length [NELEMS(route->ttl)]. *)
Record mroute : Type := mkMroute {
  mr_source  : sockaddr;
  mr_group   : sockaddr;
  mr_inbound : Z;
  mr_ttl     : list Z
}.

(** Protocol levels of [setsockopt]. *)
Inductive proto : Type := IPPROTO_IP | IPPROTO_IPV6.

(** Socket option names used by kern.c. *)
Inductive sockopt : Type :=
| MCAST_JOIN_GROUP | MCAST_LEAVE_GROUP
| MCAST_JOIN_SOURCE_GROUP | MCAST_LEAVE_SOURCE_GROUP
| IPV6_JOIN_GROUP | IPV6_LEAVE_GROUP
| IP_ADD_MEMBERSHIP | IP_DROP_MEMBERSHIP
| MRT_ADD_MFC | MRT_DEL_MFC
| MRT6_ADD_MFC | MRT6_DEL_MFC.

(** The option value handed to the kernel: one constructor per C struct. *)
Inductive optval : Type :=
| Group_req (gr_interface : Z) (gr_group : sockaddr)
| Group_source_req (gsr_interface : Z) (gsr_source gsr_group : sockaddr)
| Ipv6_mreq (ipv6mr_multiaddr : Z) (ipv6mr_interface : Z)
| Ip_mreqn (imr_multiaddr : Z) (imr_ifindex : Z)
| Ip_mreq (imr_multiaddr : Z) (imr_interface : Z)
| Mfcctl (mfcc_origin mfcc_mcastgrp : Z) (mfcc_parent : Z) (mfcc_ttls : list Z)
| Mf6cctl (mf6cc_origin mf6cc_mcastgrp : Z) (mf6cc_parent : Z) (mf6cc_ifset : Z).

(** One [setsockopt(sd, proto, op, arg, sizeof(arg))] request. *)
Record sockopt_call : Type := mkCall {
  so_sd    : Z;
  so_proto : proto;
  so_op    : sockopt;
  so_arg   : optval
}.

(** Syslog severities used by kern.c. *)
Inductive level : Type := LOG_DEBUG | LOG_WARNING | LOG_ERR.

(** The variadic arguments of [smclog]. *)
Inductive logarg : Type :=
| LS (s : string)
| LI (n : Z).

(** One [smclog(level, fmt, ...)] line. *)
Record log_entry : Type := mkLog {
  log_level : level;
  log_fmt   : string;
  log_args  : list logarg
}.

(** Observable events, in program order. *)
Inductive event : Type :=
| Log (l : log_entry)
| Call (c : sockopt_call)
| Mrdisc_enable (vif : Z)
| Mrdisc_disable (vif : Z).

Record world : Type := mkWorld {
  trace : list event;
  errno : Z
}.

(** Build configuration (config.h). *)
Record config : Type := mkConfig {
  HAVE_STRUCT_GROUP_REQ    : bool;
  HAVE_IPV6_MULTICAST_HOST : bool;
  HAVE_STRUCT_IP_MREQN     : bool
}.

(** Character constants as C [int]s. *)
Definition chr (c : ascii) : Z := Z.of_nat (nat_of_ascii c).

Definition ENOENT : Z := 2.

(** ** A small state monad over [world] *)

Definition M (A : Type) : Type := world -> A * world.

Definition ret {A} (a : A) : M A := fun w => (a, w).

Definition bind {A B} (m : M A) (f : A -> M B) : M B :=
  fun w => let (a, w') := m w in f a w'.

Notation "x <- m ;; k" := (bind m (fun x => k))
  (at level 61, m at next level, right associativity).
Notation "m ;;; k" := (bind m (fun _ => k))
  (at level 61, right associativity).

Definition emit (e : event) : M unit :=
  fun w => (tt, mkWorld (trace w ++ [e]) (errno w)).

Definition get_errno : M Z := fun w => (errno w, w).

Definition smclog (lvl : level) (fmt : string) (args : list logarg) : M unit :=
  emit (Log (mkLog lvl fmt args)).

Definition mrdisc_enable (vif : Z) : M unit := emit (Mrdisc_enable vif).
Definition mrdisc_disable (vif : Z) : M unit := emit (Mrdisc_disable vif).

Section Kern.

(** The kernel: its answer to a [setsockopt] request, [None] on success,
    [Some e] on failure with [errno] set to [e]. *)
Variable kernel : sockopt_call -> option Z.
(** [inet_addr2str] (util.c) and [strerror] (libc): text renderings only. *)
Variable inet_addr2str : sockaddr -> string.
Variable strerror : Z -> string.

(** [setsockopt]: returns 0 on success, -1 and sets [errno] on failure. *)
Definition setsockopt (sd : Z) (p : proto) (op : sockopt) (arg : optval) : M Z :=
  fun w =>
    let c := mkCall sd p op arg in
    let w' := mkWorld (trace w ++ [Call c]) (errno w) in
    match kernel c with
    | None => (0, w')
    | Some e => (-1, mkWorld (trace w') e)
    end.

(** [group_req], RFC 3678 variant ([HAVE_STRUCT_GROUP_REQ]). *)
Definition group_req_rfc3678 (cfg : config) (sd cmd : Z) (mcg : mcgroup) : M Z :=
  let proto := if HAVE_IPV6_MULTICAST_HOST cfg && is_inet6 (mcg_group mcg)
               then IPPROTO_IPV6 else IPPROTO_IP in
  let ifx := ifindex (mcg_iface mcg) in
  let '(op, arg, source, group) :=
    if is_anyaddr (mcg_source mcg) then
      (if cmd =? chr "j" then MCAST_JOIN_GROUP else MCAST_LEAVE_GROUP,
       Group_req ifx (mcg_group mcg),
       "*",
       inet_addr2str (mcg_group mcg))
    else
      (if cmd =? chr "j" then MCAST_JOIN_SOURCE_GROUP else MCAST_LEAVE_SOURCE_GROUP,
       Group_source_req ifx (mcg_source mcg) (mcg_group mcg),
       inet_addr2str (mcg_source mcg),
       inet_addr2str (mcg_group mcg)) in
  smclog LOG_DEBUG "%s group (%s,%s) on ifindex %d and socket %d ..."
    [LS (if cmd =? chr "j" then "Join" else "Leave"); LS source; LS group;
     LI ifx; LI sd] ;;;
  setsockopt sd proto op arg.

(** [group_req], legacy variant (old style [struct ip_mreq]). *)
Definition group_req_legacy (cfg : config) (sd cmd : Z) (mcg : mcgroup) : M Z :=
  let ifx := ifindex (mcg_iface mcg) in
  let '(proto, op, arg) :=
    if HAVE_IPV6_MULTICAST_HOST cfg && is_inet6 (mcg_group mcg) then
      (IPPROTO_IPV6,
       if cmd =? chr "j" then IPV6_JOIN_GROUP else IPV6_LEAVE_GROUP,
       Ipv6_mreq (inet_addr6_get (mcg_group mcg)) ifx)
    else
      (IPPROTO_IP,
       if cmd =? chr "j" then IP_ADD_MEMBERSHIP else IP_DROP_MEMBERSHIP,
       if HAVE_STRUCT_IP_MREQN cfg
       then Ip_mreqn (inet_addr_get (mcg_group mcg)) ifx
       else Ip_mreq (inet_addr_get (mcg_group mcg)) (inaddr (mcg_iface mcg))) in
  smclog LOG_DEBUG "%s group (*,%s) on ifindex %d ..."
    [LS (if cmd =? chr "j" then "Join" else "Leave");
     LS (inet_addr2str (mcg_group mcg)); LI ifx] ;;;
  setsockopt sd proto op arg.

(** The [#ifdef HAVE_STRUCT_GROUP_REQ] selection of [group_req]. *)
Definition group_req (cfg : config) (sd cmd : Z) (mcg : mcgroup) : M Z :=
  if HAVE_STRUCT_GROUP_REQ cfg then group_req_rfc3678 cfg sd cmd mcg
  else group_req_legacy cfg sd cmd mcg.

Definition kern_join_leave (cfg : config) (sd cmd : Z) (mcg : mcgroup) : M Z :=
  let cmd := if cmd =? 0 then chr "j" else cmd in
  err <- group_req cfg sd cmd mcg ;;
  if negb (err =? 0) then
    e <- get_errno ;;
    let source := if negb (is_anyaddr (mcg_source mcg))
                  then inet_addr2str (mcg_source mcg) else "*" in
    let group := inet_addr2str (mcg_group mcg) in
    let len := if mcg_len mcg =? 0 then 32 else mcg_len mcg in
    smclog LOG_ERR "Failed %s group (%s,%s/%d) on sd %d ... %d: %s"
      [LS (if cmd =? chr "j" then "joining" else "leaving");
       LS source; LS group; LI len; LI sd; LI e; LS (strerror e)] ;;;
    ret 1
  else ret 0.

(** [NELEMS(mc.mfcc_ttls)]: the kernel's [MAXVIFS]. *)
Variable MAXVIFS : nat.

(** The loop [for (i = 0; i < NELEMS(mc.mfcc_ttls); i++)
    mc.mfcc_ttls[i] = route->ttl[i];] *)
Definition copy_ttls (ttl : list Z) : list Z :=
  map (fun i => nth i ttl 0) (seq 0 MAXVIFS).

(** The [struct mfcctl] built by [kern_mroute4] (lines 182-192). *)
Definition mfcctl_of (route : mroute) : optval :=
  Mfcctl (inet_addr_get (mr_source route)) (inet_addr_get (mr_group route))
         (mr_inbound route) (copy_ttls (mr_ttl route)).

Definition kern_mroute4 (sd cmd : Z) (route : mroute) (active : Z) : M Z :=
  let op := if cmd =? chr "a" then MRT_ADD_MFC else MRT_DEL_MFC in
  if sd =? -1 then
    smclog LOG_DEBUG "No IPv4 multicast socket" [] ;;;
    ret (-1)
  else
    let origin := inet_addr2str (mr_source route) in
    let group := inet_addr2str (mr_group route) in
    r <- setsockopt sd IPPROTO_IP op (mfcctl_of route) ;;
    if negb (r =? 0) then
      e <- get_errno ;;
      (if ENOENT =? e then
         smclog LOG_DEBUG "failed removing multicast route (%s,%s), does not exist."
           [LS origin; LS group]
       else
         smclog LOG_DEBUG "failed %s IPv4 multicast route (%s,%s): %s"
           [LS (if cmd =? chr "a" then "adding" else "removing");
            LS origin; LS group; LS (strerror e)]) ;;;
      ret 1
    else
      (if negb (active =? 0) then
         smclog LOG_DEBUG "%s %s -> %s from VIF %d"
           [LS (if cmd =? chr "a" then "Add" else "Del");
            LS origin; LS group; LI (mr_inbound route)] ;;;
         (if cmd =? chr "a" then mrdisc_enable (mr_inbound route)
          else mrdisc_disable (mr_inbound route))
       else ret tt) ;;;
      ret 0.

(** [IF_ZERO] / [IF_SET] on the [struct if_set] bitset, as a [Z]. *)
Definition IF_ZERO : Z := 0.
Definition IF_SET (i : nat) (s : Z) : Z := Z.lor s (Z.shiftl 1 (Z.of_nat i)).

(** The loop [for (i = 0; i < NELEMS(route->ttl); i++)
    if (route->ttl[i]) IF_SET(i, &mc.mf6cc_ifset);] *)
Definition ifset_of (ttl : list Z) : Z :=
  fold_left (fun s i => if nth i ttl 0 =? 0 then s else IF_SET i s)
            (seq 0 (List.length ttl)) IF_ZERO.

(** The [struct mf6cctl] built by [kern_mroute6] (lines 230-243). *)
Definition mf6cctl_of (route : mroute) : optval :=
  Mf6cctl (inet_addr6_get (mr_source route)) (inet_addr6_get (mr_group route))
          (mr_inbound route) (ifset_of (mr_ttl route)).

Definition kern_mroute6 (sd cmd : Z) (route : mroute) : M Z :=
  let op := if cmd =? chr "a" then MRT6_ADD_MFC else MRT6_DEL_MFC in
  if sd <? 0 then
    smclog LOG_DEBUG "No IPv6 multicast socket" [] ;;;
    ret (-1)
  else
    let origin := inet_addr2str (mr_source route) in
    let group := inet_addr2str (mr_group route) in
    r <- setsockopt sd IPPROTO_IPV6 op (mf6cctl_of route) ;;
    if negb (r =? 0) then
      e <- get_errno ;;
      (if ENOENT =? e then
         smclog LOG_DEBUG "failed removing IPv6 multicast route (%s,%s), does not exist."
           [LS origin; LS group]
       else
         smclog LOG_WARNING "failed %s IPv6 multicast route (%s,%s): %s"
           [LS (if cmd =? chr "a" then "adding" else "removing");
            LS origin; LS group; LS (strerror e)]) ;;;
      ret 1
    else ret 0.

(** ** Vocabulary for the statements *)

(** The command after [if (!cmd) cmd = 'j';]. *)
Definition effective_cmd (cmd : Z) : Z := if cmd =? 0 then chr "j" else cmd.

(** Join-type membership options. *)
Definition is_join_op (op : sockopt) : bool :=
  match op with
  | MCAST_JOIN_GROUP | MCAST_JOIN_SOURCE_GROUP | IPV6_JOIN_GROUP
  | IP_ADD_MEMBERSHIP => true
  | _ => false
  end.

(** Any-Source membership options (no source in the request). *)
Definition is_asm_op (op : sockopt) : bool :=
  match op with
  | MCAST_JOIN_GROUP | MCAST_LEAVE_GROUP | IPV6_JOIN_GROUP | IPV6_LEAVE_GROUP
  | IP_ADD_MEMBERSHIP | IP_DROP_MEMBERSHIP => true
  | _ => false
  end.

(** Source-Specific membership options. *)
Definition is_ssm_op (op : sockopt) : bool :=
  match op with
  | MCAST_JOIN_SOURCE_GROUP | MCAST_LEAVE_SOURCE_GROUP => true
  | _ => false
  end.

(** The leave option matching a join option. *)
Definition leave_of (op : sockopt) : sockopt :=
  match op with
  | MCAST_JOIN_GROUP => MCAST_LEAVE_GROUP
  | MCAST_JOIN_SOURCE_GROUP => MCAST_LEAVE_SOURCE_GROUP
  | IPV6_JOIN_GROUP => IPV6_LEAVE_GROUP
  | IP_ADD_MEMBERSHIP => IP_DROP_MEMBERSHIP
  | op => op
  end.

(** Error-severity log lines. *)
Definition is_error_log (e : event) : bool :=
  match e with
  | Log l => match log_level l with LOG_ERR => true | _ => false end
  | _ => false
  end.

Definition is_mrdisc (e : event) : bool :=
  match e with Mrdisc_enable _ | Mrdisc_disable _ => true | _ => false end.

(** The forwarding-cache requests [kern_mroute4] / [kern_mroute6] submit. *)
Definition mfc4_call (sd cmd : Z) (route : mroute) : sockopt_call :=
  mkCall sd IPPROTO_IP (if cmd =? chr "a" then MRT_ADD_MFC else MRT_DEL_MFC)
         (mfcctl_of route).

Definition mfc6_call (sd cmd : Z) (route : mroute) : sockopt_call :=
  mkCall sd IPPROTO_IPV6 (if cmd =? chr "a" then MRT6_ADD_MFC else MRT6_DEL_MFC)
         (mf6cctl_of route).

(** The failure diagnostics of the two cache managers. *)
Definition mfc4_fail_log (cmd : Z) (route : mroute) (e : Z) : log_entry :=
  if ENOENT =? e then
    mkLog LOG_DEBUG "failed removing multicast route (%s,%s), does not exist."
      [LS (inet_addr2str (mr_source route)); LS (inet_addr2str (mr_group route))]
  else
    mkLog LOG_DEBUG "failed %s IPv4 multicast route (%s,%s): %s"
      [LS (if cmd =? chr "a" then "adding" else "removing");
       LS (inet_addr2str (mr_source route)); LS (inet_addr2str (mr_group route));
       LS (strerror e)].

Definition mfc6_fail_log (cmd : Z) (route : mroute) (e : Z) : log_entry :=
  if ENOENT =? e then
    mkLog LOG_DEBUG "failed removing IPv6 multicast route (%s,%s), does not exist."
      [LS (inet_addr2str (mr_source route)); LS (inet_addr2str (mr_group route))]
  else
    mkLog LOG_WARNING "failed %s IPv6 multicast route (%s,%s): %s"
      [LS (if cmd =? chr "a" then "adding" else "removing");
       LS (inet_addr2str (mr_source route)); LS (inet_addr2str (mr_group route));
       LS (strerror e)].

(** ** Runs of the operations *)

Lemma bind_run {A B} (m : M A) (f : A -> M B) w :
  bind m f w = f (fst (m w)) (snd (m w)).
Proof. unfold bind. destruct (m w); reflexivity. Qed.

Lemma kern_mroute4_run sd cmd route active w :
  kern_mroute4 sd cmd route active w =
  if sd =? -1 then
    (-1, mkWorld (trace w ++ [Log (mkLog LOG_DEBUG "No IPv4 multicast socket" [])])
                 (errno w))
  else
    match kernel (mfc4_call sd cmd route) with
    | Some e =>
        (1, mkWorld (trace w ++ [Call (mfc4_call sd cmd route);
                                 Log (mfc4_fail_log cmd route e)]) e)
    | None =>
        (0, mkWorld (trace w ++ Call (mfc4_call sd cmd route) ::
               (if negb (active =? 0) then
                  [Log (mkLog LOG_DEBUG "%s %s -> %s from VIF %d"
                          [LS (if cmd =? chr "a" then "Add" else "Del");
                           LS (inet_addr2str (mr_source route));
                           LS (inet_addr2str (mr_group route));
                           LI (mr_inbound route)]);
                   if cmd =? chr "a" then Mrdisc_enable (mr_inbound route)
                   else Mrdisc_disable (mr_inbound route)]
                else []))
                (errno w))
    end.
Proof.
  unfold kern_mroute4, mfc4_call, mfc4_fail_log.
  destruct (sd =? -1); [reflexivity |].
  unfold bind, setsockopt, smclog, emit, get_errno, ret.
  destruct (kernel _) as [e|].
  - cbn -[ENOENT]; destruct (ENOENT =? e); simpl; rewrite <- app_assoc; reflexivity.
  - simpl; destruct (negb (active =? 0)); simpl; [| reflexivity].
    destruct (cmd =? chr "a"); simpl; rewrite <- !app_assoc; reflexivity.
Qed.

Lemma kern_mroute6_run sd cmd route w :
  kern_mroute6 sd cmd route w =
  if sd <? 0 then
    (-1, mkWorld (trace w ++ [Log (mkLog LOG_DEBUG "No IPv6 multicast socket" [])])
                 (errno w))
  else
    match kernel (mfc6_call sd cmd route) with
    | Some e =>
        (1, mkWorld (trace w ++ [Call (mfc6_call sd cmd route);
                                 Log (mfc6_fail_log cmd route e)]) e)
    | None => (0, mkWorld (trace w ++ [Call (mfc6_call sd cmd route)]) (errno w))
    end.
Proof.
  unfold kern_mroute6, mfc6_call, mfc6_fail_log.
  destruct (sd <? 0); [reflexivity |].
  unfold bind, setsockopt, smclog, emit, get_errno, ret.
  destruct (kernel _) as [e|]; [| reflexivity].
  cbn -[ENOENT]; destruct (ENOENT =? e); simpl; rewrite <- app_assoc; reflexivity.
Qed.

(** The request [group_req] hands to the kernel, for an (effective) command
    [cmd]: with the RFC 3678 API an Any-Source request exactly when the
    source is the any address, a Source-Specific one carrying the source
    otherwise; with the legacy API always an Any-Source request
    ([IPV6_JOIN_GROUP]/[IPV6_LEAVE_GROUP] with [struct ipv6_mreq], or
    [IP_ADD_MEMBERSHIP]/[IP_DROP_MEMBERSHIP] with [struct ip_mreqn] or
    [struct ip_mreq]) built from the group and the interface only, the
    source taking no part in it. *)
Definition membership_request_ok (cfg : config) (cmd : Z) (mcg : mcgroup)
    (c : sockopt_call) : Prop :=
  if HAVE_STRUCT_GROUP_REQ cfg then
    if is_anyaddr (mcg_source mcg) then
      so_op c = (if cmd =? chr "j" then MCAST_JOIN_GROUP else MCAST_LEAVE_GROUP) /\
      so_arg c = Group_req (ifindex (mcg_iface mcg)) (mcg_group mcg)
    else
      so_op c = (if cmd =? chr "j" then MCAST_JOIN_SOURCE_GROUP
                 else MCAST_LEAVE_SOURCE_GROUP) /\
      so_arg c = Group_source_req (ifindex (mcg_iface mcg)) (mcg_source mcg)
                                  (mcg_group mcg)
  else
    if HAVE_IPV6_MULTICAST_HOST cfg && is_inet6 (mcg_group mcg) then
      so_op c = (if cmd =? chr "j" then IPV6_JOIN_GROUP else IPV6_LEAVE_GROUP) /\
      so_arg c = Ipv6_mreq (inet_addr6_get (mcg_group mcg)) (ifindex (mcg_iface mcg))
    else
      so_op c = (if cmd =? chr "j" then IP_ADD_MEMBERSHIP else IP_DROP_MEMBERSHIP) /\
      so_arg c = (if HAVE_STRUCT_IP_MREQN cfg
                  then Ip_mreqn (inet_addr_get (mcg_group mcg)) (ifindex (mcg_iface mcg))
                  else Ip_mreq (inet_addr_get (mcg_group mcg)) (inaddr (mcg_iface mcg))).

(** The error line of [kern_join_leave] for effective command [cmd]. *)
Definition join_fail_log (sd cmd : Z) (mcg : mcgroup) (e : Z) : log_entry :=
  mkLog LOG_ERR "Failed %s group (%s,%s/%d) on sd %d ... %d: %s"
    [LS (if cmd =? chr "j" then "joining" else "leaving");
     LS (if is_anyaddr (mcg_source mcg) then "*" else inet_addr2str (mcg_source mcg));
     LS (inet_addr2str (mcg_group mcg));
     LI (if mcg_len mcg =? 0 then 32 else mcg_len mcg);
     LI sd; LI e; LS (strerror e)].

Lemma log_then_setsockopt lvl fmt args sd p op arg w :
  (smclog lvl fmt args ;;; setsockopt sd p op arg) w =
  match kernel (mkCall sd p op arg) with
  | None => (0, mkWorld (trace w ++ [Log (mkLog lvl fmt args); Call (mkCall sd p op arg)])
                        (errno w))
  | Some e => (-1, mkWorld (trace w ++ [Log (mkLog lvl fmt args);
                                         Call (mkCall sd p op arg)]) e)
  end.
Proof.
  unfold bind, smclog, emit, setsockopt; simpl.
  destruct (kernel _); simpl; rewrite <- app_assoc; reflexivity.
Qed.

Lemma group_req_run cfg sd cmd mcg w :
  exists dbg c,
    log_level dbg = LOG_DEBUG /\
    hd_error (log_args dbg) = Some (LS (if cmd =? chr "j" then "Join" else "Leave")) /\
    so_sd c = sd /\
    membership_request_ok cfg cmd mcg c /\
    group_req cfg sd cmd mcg w =
    match kernel c with
    | None => (0, mkWorld (trace w ++ [Log dbg; Call c]) (errno w))
    | Some e => (-1, mkWorld (trace w ++ [Log dbg; Call c]) e)
    end.
Proof.
  unfold group_req, membership_request_ok.
  destruct (HAVE_STRUCT_GROUP_REQ cfg).
  - unfold group_req_rfc3678.
    destruct (is_anyaddr (mcg_source mcg)), (cmd =? chr "j");
      rewrite log_then_setsockopt;
      eexists _, _; repeat split; reflexivity.
  - unfold group_req_legacy.
    destruct (HAVE_IPV6_MULTICAST_HOST cfg && is_inet6 (mcg_group mcg)),
             (cmd =? chr "j"), (HAVE_STRUCT_IP_MREQN cfg);
      rewrite log_then_setsockopt;
      eexists _, _; repeat split; reflexivity.
Qed.

Lemma kern_join_leave_run cfg sd cmd mcg w :
  exists dbg c,
    log_level dbg = LOG_DEBUG /\
    hd_error (log_args dbg) =
      Some (LS (if effective_cmd cmd =? chr "j" then "Join" else "Leave")) /\
    so_sd c = sd /\
    membership_request_ok cfg (effective_cmd cmd) mcg c /\
    kern_join_leave cfg sd cmd mcg w =
    match kernel c with
    | None => (0, mkWorld (trace w ++ [Log dbg; Call c]) (errno w))
    | Some e => (1, mkWorld (trace w ++ [Log dbg; Call c;
                                         Log (join_fail_log sd (effective_cmd cmd) mcg e)]) e)
    end.
Proof.
  destruct (group_req_run cfg sd (effective_cmd cmd) mcg w)
    as (dbg & c & Hl & Hh & Hsd & Hok & Hrun).
  exists dbg, c; repeat split; try assumption.
  unfold kern_join_leave. fold (effective_cmd cmd).
  rewrite bind_run, Hrun.
  destruct (kernel c) as [e|]; [| reflexivity].
  unfold join_fail_log, bind, get_errno, smclog, emit, ret; simpl.
  rewrite <- app_assoc.
  destruct (is_anyaddr (mcg_source mcg)); reflexivity.
Qed.

(** ** The outbound vectors *)

Lemma copy_ttls_length ttl : List.length (copy_ttls ttl) = MAXVIFS.
Proof. unfold copy_ttls. rewrite length_map, length_seq. reflexivity. Qed.

Lemma copy_ttls_nth ttl i :
  (i < MAXVIFS)%nat -> nth_error (copy_ttls ttl) i = Some (nth i ttl 0).
Proof.
  intros Hi. unfold copy_ttls.
  rewrite nth_error_map, nth_error_seq.
  destruct (Nat.ltb_spec i MAXVIFS); [reflexivity | lia].
Qed.

Lemma testbit_ifset_fold ttl l s i :
  Z.testbit (fold_left (fun s j => if nth j ttl 0 =? 0 then s else IF_SET j s) l s)
            (Z.of_nat i) =
  Z.testbit s (Z.of_nat i) ||
  existsb (fun j => Nat.eqb j i && negb (nth j ttl 0 =? 0)) l.
Proof.
  induction l as [|j l IH] in s |- *; simpl.
  - rewrite orb_false_r. reflexivity.
  - rewrite IH. destruct (nth j ttl 0 =? 0); simpl.
    + rewrite andb_false_r. reflexivity.
    + unfold IF_SET. rewrite Z.lor_spec, Z.shiftl_1_l, Z.pow2_bits_eqb by lia.
      rewrite andb_true_r.
      destruct (Nat.eqb_spec j i) as [<-|Hne].
      * rewrite Z.eqb_refl. destruct (Z.testbit s _); reflexivity.
      * rewrite (proj2 (Z.eqb_neq _ _)) by lia.
        destruct (Z.testbit s _); reflexivity.
Qed.

Lemma existsb_seq_index ttl a n i :
  existsb (fun j => Nat.eqb j i && negb (nth j ttl 0 =? 0)) (seq a n) =
  (Nat.leb a i && Nat.ltb i (a + n)) && negb (nth i ttl 0 =? 0).
Proof.
  induction n as [|n IH] in a |- *; cbn [seq existsb].
  - destruct (Nat.leb_spec a i), (Nat.ltb_spec i (a + 0)); simpl; try reflexivity; lia.
  - rewrite IH.
    destruct (Nat.eqb_spec a i) as [<-|Hne].
    + rewrite Nat.leb_refl.
      destruct (Nat.leb_spec (S a) a); [lia |].
      destruct (Nat.ltb_spec a (a + S n)); [| lia].
      destruct (negb _); reflexivity.
    + cbn [andb orb].
      destruct (Nat.leb_spec (S a) i), (Nat.leb_spec a i),
               (Nat.ltb_spec i (S a + n)), (Nat.ltb_spec i (a + S n));
        cbn [andb]; try reflexivity; lia.
Qed.

Lemma testbit_ifset_of ttl i :
  Z.testbit (ifset_of ttl) (Z.of_nat i) =
  Nat.ltb i (List.length ttl) && negb (nth i ttl 0 =? 0).
Proof.
  unfold ifset_of. rewrite testbit_ifset_fold, existsb_seq_index.
  unfold IF_ZERO. rewrite Z.bits_0. reflexivity.
Qed.

(** What [group_req] submits depends on the command only through the
    join/leave choice: level, option value and join option are fixed by the
    configuration and the request. *)
Lemma group_req_shape cfg sd mcg :
  exists p jop arg,
    p = (if HAVE_IPV6_MULTICAST_HOST cfg && is_inet6 (mcg_group mcg)
         then IPPROTO_IPV6 else IPPROTO_IP) /\
    is_join_op jop = true /\
    (HAVE_STRUCT_GROUP_REQ cfg = false ->
     arg = if HAVE_IPV6_MULTICAST_HOST cfg && is_inet6 (mcg_group mcg)
           then Ipv6_mreq (inet_addr6_get (mcg_group mcg)) (ifindex (mcg_iface mcg))
           else if HAVE_STRUCT_IP_MREQN cfg
           then Ip_mreqn (inet_addr_get (mcg_group mcg)) (ifindex (mcg_iface mcg))
           else Ip_mreq (inet_addr_get (mcg_group mcg)) (inaddr (mcg_iface mcg))) /\
    forall cmd w, exists dbg,
      let c := mkCall sd p (if cmd =? chr "j" then jop else leave_of jop) arg in
      group_req cfg sd cmd mcg w =
      match kernel c with
      | None => (0, mkWorld (trace w ++ [Log dbg; Call c]) (errno w))
      | Some e => (-1, mkWorld (trace w ++ [Log dbg; Call c]) e)
      end.
Proof.
  unfold group_req.
  destruct (HAVE_STRUCT_GROUP_REQ cfg) eqn:Hg.
  - unfold group_req_rfc3678.
    destruct (is_anyaddr (mcg_source mcg)).
    + eexists _, MCAST_JOIN_GROUP, _.
      split; [reflexivity | split; [reflexivity | split; [discriminate |]]].
      intros cmd w. destruct (cmd =? chr "j");
        rewrite log_then_setsockopt; eexists; reflexivity.
    + eexists _, MCAST_JOIN_SOURCE_GROUP, _.
      split; [reflexivity | split; [reflexivity | split; [discriminate |]]].
      intros cmd w. destruct (cmd =? chr "j");
        rewrite log_then_setsockopt; eexists; reflexivity.
  - unfold group_req_legacy.
    destruct (HAVE_IPV6_MULTICAST_HOST cfg && is_inet6 (mcg_group mcg)).
    + eexists _, IPV6_JOIN_GROUP, _.
      split; [reflexivity | split; [reflexivity | split; [reflexivity |]]].
      intros cmd w. destruct (cmd =? chr "j");
        rewrite log_then_setsockopt; eexists; reflexivity.
    + eexists _, IP_ADD_MEMBERSHIP, _.
      split; [reflexivity | split; [reflexivity | split; [reflexivity |]]].
      intros cmd w. destruct (cmd =? chr "j"), (HAVE_STRUCT_IP_MREQN cfg);
        rewrite log_then_setsockopt; eexists; reflexivity.
Qed.

(** The same for [kern_join_leave], with the effective command. *)
Lemma kern_join_leave_shape cfg sd mcg :
  exists p jop arg,
    p = (if HAVE_IPV6_MULTICAST_HOST cfg && is_inet6 (mcg_group mcg)
         then IPPROTO_IPV6 else IPPROTO_IP) /\
    is_join_op jop = true /\
    (HAVE_STRUCT_GROUP_REQ cfg = false ->
     arg = if HAVE_IPV6_MULTICAST_HOST cfg && is_inet6 (mcg_group mcg)
           then Ipv6_mreq (inet_addr6_get (mcg_group mcg)) (ifindex (mcg_iface mcg))
           else if HAVE_STRUCT_IP_MREQN cfg
           then Ip_mreqn (inet_addr_get (mcg_group mcg)) (ifindex (mcg_iface mcg))
           else Ip_mreq (inet_addr_get (mcg_group mcg)) (inaddr (mcg_iface mcg))) /\
    forall cmd w, exists dbg,
      let c := mkCall sd p (if effective_cmd cmd =? chr "j" then jop else leave_of jop) arg in
      kern_join_leave cfg sd cmd mcg w =
      match kernel c with
      | None => (0, mkWorld (trace w ++ [Log dbg; Call c]) (errno w))
      | Some e => (1, mkWorld (trace w ++ [Log dbg; Call c;
                                           Log (join_fail_log sd (effective_cmd cmd) mcg e)]) e)
      end.
Proof.
  destruct (group_req_shape cfg sd mcg) as (p & jop & arg & Hp & Hj & Ha & Hrun).
  exists p, jop, arg. split; [exact Hp | split; [exact Hj | split; [exact Ha |]]].
  intros cmd w. destruct (Hrun (effective_cmd cmd) w) as [dbg Hr].
  exists dbg. cbv zeta.
  unfold kern_join_leave. fold (effective_cmd cmd).
  rewrite bind_run, Hr.
  destruct (kernel _) as [e|]; [| reflexivity].
  unfold join_fail_log, bind, get_errno, smclog, emit, ret; simpl.
  rewrite <- app_assoc.
  destruct (is_anyaddr (mcg_source mcg)); reflexivity.
Qed.

Lemma ifset_of_zero_pattern l1 l2 :
  map (fun t => t =? 0) l1 = map (fun t => t =? 0) l2 ->
  ifset_of l1 = ifset_of l2.
Proof.
  intros H.
  assert (Hlen : List.length l1 = List.length l2).
  { rewrite <- (length_map (fun t => t =? 0) l1), <- (length_map (fun t => t =? 0) l2).
    now rewrite H. }
  apply Z.bits_inj'. intros n Hn.
  rewrite <- (Z2Nat.id n Hn), !testbit_ifset_of, Hlen.
  f_equal. f_equal.
  rewrite <- (map_nth (fun t => t =? 0) l1 0), <- (map_nth (fun t => t =? 0) l2 0).
  now rewrite H.
Qed.

Lemma ifset_of_bound l :
  0 <= ifset_of l < 2 ^ Z.of_nat (List.length l).
Proof.
  assert (E : ifset_of l = ifset_of l mod 2 ^ Z.of_nat (List.length l)).
  { apply Z.bits_inj'. intros n Hn.
    destruct (Z.ltb_spec n (Z.of_nat (List.length l))) as [Hlt|Hge].
    - rewrite Z.mod_pow2_bits_low by exact Hlt. reflexivity.
    - rewrite Z.mod_pow2_bits_high by lia.
      rewrite <- (Z2Nat.id n Hn), testbit_ifset_of.
      destruct (Nat.ltb_spec (Z.to_nat n) (List.length l)); [lia | reflexivity]. }
  rewrite E. apply Z.mod_pos_bound. apply Z.pow_pos_nonneg; lia.
Qed.

Lemma group_req_len_irrelevant cfg sd cmd ifc src grp l1 l2 w :
  group_req cfg sd cmd (mkMcgroup ifc src grp l1) w =
  group_req cfg sd cmd (mkMcgroup ifc src grp l2) w.
Proof. reflexivity. Qed.

(** ** Claims *)

(** C1 (as amended): [kern_join_leave] issues exactly one membership
    request, after its debug line.  With the RFC 3678 API
    ([HAVE_STRUCT_GROUP_REQ]) it is an Any-Source join/leave
    ([MCAST_JOIN_GROUP]/[MCAST_LEAVE_GROUP], interface and group only) when
    the source is the any address, and a Source-Specific join/leave
    ([MCAST_JOIN_SOURCE_GROUP]/[MCAST_LEAVE_SOURCE_GROUP]) carrying the
    source otherwise; with the legacy API it is always an Any-Source
    join/leave ([IPV6_JOIN_GROUP]/[IPV6_LEAVE_GROUP] on a [struct ipv6_mreq],
    or [IP_ADD_MEMBERSHIP]/[IP_DROP_MEMBERSHIP] on a [struct ip_mreqn] or
    [struct ip_mreq]) whose option value holds only the group and the
    interface: the source is ignored. *)
Theorem kern_join_leave_request_variant cfg sd cmd mcg w :
  exists dbg c rest,
    trace (snd (kern_join_leave cfg sd cmd mcg w)) = trace w ++ Log dbg :: Call c :: rest /\
    (forall c', ~ In (Call c') rest) /\
    so_sd c = sd /\
    membership_request_ok cfg (if cmd =? 0 then chr "j" else cmd) mcg c.
Proof.
  destruct (kern_join_leave_run cfg sd cmd mcg w)
    as (dbg & c & _ & _ & Hsd & Hok & Hrun).
  rewrite Hrun.
  destruct (kernel c) as [e|].
  - exists dbg, c, [Log (join_fail_log sd (effective_cmd cmd) mcg e)].
    refine (conj _ (conj _ (conj Hsd Hok))); [reflexivity |].
    intros c' [H|H]; [discriminate | contradiction].
  - exists dbg, c, [].
    refine (conj _ (conj _ (conj Hsd Hok))); [reflexivity |].
    intros c' H. contradiction.
Qed.

(** C7: [kern_join_leave] logs a debug line naming the attempted operation
    before the kernel call; when the call fails it logs, at error severity,
    the operation, the source ([*] for an Any-Source request), the group,
    the prefix length (32 when [mcg->len] is 0), the socket and the OS error
    ([errno] and [strerror]). *)
Theorem kern_join_leave_diagnostics cfg sd cmd mcg w :
  let cmd' := if cmd =? 0 then chr "j" else cmd in
  exists dbg c,
    log_level dbg = LOG_DEBUG /\
    hd_error (log_args dbg) = Some (LS (if cmd' =? chr "j" then "Join" else "Leave")) /\
    trace (snd (kern_join_leave cfg sd cmd mcg w)) =
    match kernel c with
    | None => trace w ++ [Log dbg; Call c]
    | Some e =>
        trace w ++
          [Log dbg; Call c;
           Log (mkLog LOG_ERR "Failed %s group (%s,%s/%d) on sd %d ... %d: %s"
                  [LS (if cmd' =? chr "j" then "joining" else "leaving");
                   LS (if is_anyaddr (mcg_source mcg) then "*"
                       else inet_addr2str (mcg_source mcg));
                   LS (inet_addr2str (mcg_group mcg));
                   LI (if mcg_len mcg =? 0 then 32 else mcg_len mcg);
                   LI sd; LI e; LS (strerror e)])]
    end.
Proof.
  intros cmd'.
  destruct (kern_join_leave_run cfg sd cmd mcg w)
    as (dbg & c & Hl & Hh & _ & _ & Hrun).
  exists dbg, c. split; [assumption | split; [assumption |]].
  rewrite Hrun. destruct (kernel c); reflexivity.
Qed.

(** C9: a command of 0 is taken as ['j']; the request issued is a join
    exactly when the effective command is ['j'], a leave otherwise. *)
Theorem kern_join_leave_command cfg sd cmd mcg w :
  exists dbg c rest,
    trace (snd (kern_join_leave cfg sd cmd mcg w)) = trace w ++ Log dbg :: Call c :: rest /\
    is_join_op (so_op c) = ((if cmd =? 0 then chr "j" else cmd) =? chr "j").
Proof.
  destruct (kern_join_leave_run cfg sd cmd mcg w)
    as (dbg & c & _ & _ & _ & Hok & Hrun).
  exists dbg, c, (match kernel c with
                  | None => []
                  | Some e => [Log (join_fail_log sd (effective_cmd cmd) mcg e)]
                  end).
  split.
  - rewrite Hrun. destruct (kernel c); reflexivity.
  - fold (effective_cmd cmd).
    unfold membership_request_ok in Hok.
    destruct (HAVE_STRUCT_GROUP_REQ cfg); [destruct (is_anyaddr (mcg_source mcg)) |].
    + destruct Hok as [-> _]. destruct (effective_cmd cmd =? chr "j"); reflexivity.
    + destruct Hok as [-> _]. destruct (effective_cmd cmd =? chr "j"); reflexivity.
    + destruct (HAVE_IPV6_MULTICAST_HOST cfg && is_inet6 (mcg_group mcg));
        destruct Hok as [-> _]; destruct (effective_cmd cmd =? chr "j"); reflexivity.
Qed.

(** C2 (code_bug): [kern_mroute4] treats only the descriptor -1 as "no
    socket"; another negative descriptor such as -2 is handed to the kernel
    and never yields the precondition outcome -1, whereas [kern_mroute6]
    returns -1 without a kernel call for it. *)
Theorem kern_mroute4_minus2_calls_kernel cmd route active w :
  (exists c rest,
     trace (snd (kern_mroute4 (-2) cmd route active w)) = trace w ++ Call c :: rest /\
     so_sd c = -2 /\
     fst (kern_mroute4 (-2) cmd route active w) <> -1) /\
  kern_mroute6 (-2) cmd route w =
    (-1, mkWorld (trace w ++ [Log (mkLog LOG_DEBUG "No IPv6 multicast socket" [])])
                 (errno w)).
Proof.
  split; [| rewrite kern_mroute6_run; reflexivity].
  rewrite kern_mroute4_run. simpl.
  destruct (kernel (mfc4_call (-2) cmd route)) as [e|].
  - eexists _, _. split; [reflexivity | split; [reflexivity | discriminate]].
  - eexists _, _. split; [reflexivity | split; [reflexivity | discriminate]].
Qed.

(** C3: for a usable socket, [kern_mroute4] submits a [struct mfcctl] whose
    TTL vector has exactly [NELEMS(mc.mfcc_ttls)] (the kernel's [MAXVIFS])
    entries, whatever the length of the caller's vector, entry [i] being the
    caller's entry [i] for every index below that bound. *)
Theorem kern_mroute4_ttl_copy sd (Hsd : sd <> -1) cmd route active w :
  exists ttls rest,
    trace (snd (kern_mroute4 sd cmd route active w)) =
      trace w ++ Call (mkCall sd IPPROTO_IP
                        (if cmd =? chr "a" then MRT_ADD_MFC else MRT_DEL_MFC)
                        (Mfcctl (inet_addr_get (mr_source route))
                                (inet_addr_get (mr_group route))
                                (mr_inbound route) ttls)) :: rest /\
    List.length ttls = MAXVIFS /\
    (forall i, (i < MAXVIFS)%nat -> (i < List.length (mr_ttl route))%nat ->
               nth_error ttls i = nth_error (mr_ttl route) i).
Proof.
  exists (copy_ttls (mr_ttl route)).
  rewrite kern_mroute4_run.
  destruct (Z.eqb_spec sd (-1)) as [E|_]; [contradiction |].
  unfold mfc4_call, mfcctl_of.
  assert (Hv : List.length (copy_ttls (mr_ttl route)) = MAXVIFS /\
               (forall i, (i < MAXVIFS)%nat -> (i < List.length (mr_ttl route))%nat ->
                  nth_error (copy_ttls (mr_ttl route)) i = nth_error (mr_ttl route) i)).
  { split; [apply copy_ttls_length |].
    intros i Hi Hl. rewrite copy_ttls_nth by exact Hi.
    symmetry. apply nth_error_nth'. exact Hl. }
  destruct (kernel _); eexists; (split; [reflexivity | exact Hv]).
Qed.

(** C4: for a usable socket, [kern_mroute6] submits a [struct mf6cctl]
    whose interface set has bit [i] set exactly when entry [i] of the
    caller's TTL vector is nonzero, and no bit beyond the vector (the set
    starts cleared); for the vector [0,5,0,3] bits 1 and 3 are set and bits
    0 and 2 are clear. *)
Theorem kern_mroute6_ifset sd (Hsd : 0 <= sd) cmd route w :
  (exists ifset rest,
     trace (snd (kern_mroute6 sd cmd route w)) =
       trace w ++ Call (mkCall sd IPPROTO_IPV6
                         (if cmd =? chr "a" then MRT6_ADD_MFC else MRT6_DEL_MFC)
                         (Mf6cctl (inet_addr6_get (mr_source route))
                                  (inet_addr6_get (mr_group route))
                                  (mr_inbound route) ifset)) :: rest /\
     (forall i, (i < List.length (mr_ttl route))%nat ->
                Z.testbit ifset (Z.of_nat i) = negb (nth i (mr_ttl route) 0 =? 0)) /\
     (forall i, (List.length (mr_ttl route) <= i)%nat ->
                Z.testbit ifset (Z.of_nat i) = false)) /\
  (Z.testbit (ifset_of [0; 5; 0; 3]) 0 = false /\
   Z.testbit (ifset_of [0; 5; 0; 3]) 1 = true /\
   Z.testbit (ifset_of [0; 5; 0; 3]) 2 = false /\
   Z.testbit (ifset_of [0; 5; 0; 3]) 3 = true).
Proof.
  split; [| repeat split; reflexivity].
  exists (ifset_of (mr_ttl route)).
  rewrite kern_mroute6_run.
  destruct (Z.ltb_spec sd 0) as [E|_]; [lia |].
  unfold mfc6_call, mf6cctl_of.
  assert (Hv : (forall i, (i < List.length (mr_ttl route))%nat ->
                  Z.testbit (ifset_of (mr_ttl route)) (Z.of_nat i) =
                  negb (nth i (mr_ttl route) 0 =? 0)) /\
               (forall i, (List.length (mr_ttl route) <= i)%nat ->
                  Z.testbit (ifset_of (mr_ttl route)) (Z.of_nat i) = false)).
  { split.
    - intros i Hi. rewrite testbit_ifset_of.
      destruct (Nat.ltb_spec i (List.length (mr_ttl route))); [reflexivity | lia].
    - intros i Hi. rewrite testbit_ifset_of.
      destruct (Nat.ltb_spec i (List.length (mr_ttl route))); [lia | reflexivity]. }
  destruct (kernel _); eexists; (split; [reflexivity | exact Hv]).
Qed.

(** C5: when the kernel rejects the request of [kern_mroute4] or
    [kern_mroute6] with [errno] [e], the operation returns 1 and logs one
    line: the "does not exist" line at debug severity when [e] is [ENOENT],
    otherwise the operation name and [strerror(e)], at debug severity for
    IPv4 and at warning severity for IPv6. *)
Theorem kern_mroute_failure_diagnostics sd e (Hsd : 0 <= sd) cmd route active w :
  let origin := inet_addr2str (mr_source route) in
  let group := inet_addr2str (mr_group route) in
  let opname := if cmd =? chr "a" then "adding" else "removing" in
  (kernel (mfc4_call sd cmd route) = Some e ->
   kern_mroute4 sd cmd route active w =
   (1, mkWorld (trace w ++
        [Call (mfc4_call sd cmd route);
         Log (if ENOENT =? e then
                mkLog LOG_DEBUG "failed removing multicast route (%s,%s), does not exist."
                  [LS origin; LS group]
              else
                mkLog LOG_DEBUG "failed %s IPv4 multicast route (%s,%s): %s"
                  [LS opname; LS origin; LS group; LS (strerror e)])]) e)) /\
  (kernel (mfc6_call sd cmd route) = Some e ->
   kern_mroute6 sd cmd route w =
   (1, mkWorld (trace w ++
        [Call (mfc6_call sd cmd route);
         Log (if ENOENT =? e then
                mkLog LOG_DEBUG "failed removing IPv6 multicast route (%s,%s), does not exist."
                  [LS origin; LS group]
              else
                mkLog LOG_WARNING "failed %s IPv6 multicast route (%s,%s): %s"
                  [LS opname; LS origin; LS group; LS (strerror e)])]) e)).
Proof.
  intros origin group opname. split; intros Hk.
  - rewrite kern_mroute4_run, Hk.
    destruct (Z.eqb_spec sd (-1)); [lia | reflexivity].
  - rewrite kern_mroute6_run, Hk.
    destruct (Z.ltb_spec sd 0); [lia | reflexivity].
Qed.

(** C6: [kern_mroute4] notifies the discovery protocol exactly once, on the
    inbound interface (enable for ADD, disable otherwise), when the socket
    is usable, the kernel accepts the request and [active] is nonzero, and
    never otherwise; [kern_mroute6] never notifies it. *)
Theorem kern_mroute_mrdisc sd cmd route active w :
  (exists new,
     trace (snd (kern_mroute4 sd cmd route active w)) = trace w ++ new /\
     filter is_mrdisc new =
       if negb (sd =? -1) && negb (active =? 0) &&
          match kernel (mfc4_call sd cmd route) with None => true | Some _ => false end
       then [if cmd =? chr "a" then Mrdisc_enable (mr_inbound route)
             else Mrdisc_disable (mr_inbound route)]
       else []) /\
  (exists new,
     trace (snd (kern_mroute6 sd cmd route w)) = trace w ++ new /\
     filter is_mrdisc new = []).
Proof.
  split.
  - rewrite kern_mroute4_run.
    destruct (sd =? -1); [eexists; split; reflexivity |].
    destruct (kernel _); simpl; [rewrite andb_false_r; eexists; split; reflexivity |].
    rewrite andb_true_r.
    destruct (negb (active =? 0)); [| eexists; split; reflexivity].
    destruct (cmd =? chr "a"); eexists; split; reflexivity.
  - rewrite kern_mroute6_run.
    destruct (sd <? 0); [eexists; split; reflexivity |].
    destruct (kernel _); eexists; split; reflexivity.
Qed.

(** C8: [kern_join_leave] returns 0 when the kernel accepts its one
    request and 1 when it rejects it, never -1; [kern_mroute4] returns the
    "no socket" value -1 for the descriptor -1 (no kernel call), and
    otherwise 0 when the kernel accepts its request and 1 when it rejects
    it; [kern_mroute6] likewise with -1 for every negative descriptor.  The
    three values -1, 0 and 1 are distinct. *)
Theorem return_codes cfg sd cmd mcg route active w :
  (exists dbg c rest,
     trace (snd (kern_join_leave cfg sd cmd mcg w)) = trace w ++ Log dbg :: Call c :: rest /\
     (forall c', ~ In (Call c') rest) /\
     fst (kern_join_leave cfg sd cmd mcg w) =
       match kernel c with None => 0 | Some _ => 1 end) /\
  fst (kern_mroute4 sd cmd route active w) =
    (if sd =? -1 then -1
     else match kernel (mfc4_call sd cmd route) with None => 0 | Some _ => 1 end) /\
  fst (kern_mroute6 sd cmd route w) =
    (if sd <? 0 then -1
     else match kernel (mfc6_call sd cmd route) with None => 0 | Some _ => 1 end) /\
  (-1 <> 0 /\ -1 <> 1 /\ 0 <> 1).
Proof.
  destruct (kern_join_leave_run cfg sd cmd mcg w) as (dbg & c & _ & _ & _ & _ & Hrun).
  rewrite Hrun, kern_mroute4_run, kern_mroute6_run.
  split; [| split; [| split; [| lia]]].
  - exists dbg, c, (match kernel c with
                    | None => []
                    | Some e => [Log (join_fail_log sd (effective_cmd cmd) mcg e)]
                    end).
    destruct (kernel c) as [e|]; (split; [reflexivity | split; [| reflexivity]]).
    + intros c' [H|H]; [discriminate | contradiction].
    + intros c' H. contradiction.
  - destruct (sd =? -1); [reflexivity |].
    destruct (kernel (mfc4_call sd cmd route)); reflexivity.
  - destruct (sd <? 0); [reflexivity |].
    destruct (kernel (mfc6_call sd cmd route)); reflexivity.
Qed.

(** C10: the "does not exist" branch depends on [errno] only: an ADD the
    kernel rejects with [ENOENT] is logged with the debug-severity "failed
    removing ... does not exist" line, like a DELETE, on the IPv4 path and,
    independently, on the IPv6 path. *)
Theorem kern_mroute_enoent_add sd (Hsd : 0 <= sd) route active w :
  (kernel (mfc4_call sd (chr "a") route) = Some ENOENT ->
   trace (snd (kern_mroute4 sd (chr "a") route active w)) =
     trace w ++ [Call (mfc4_call sd (chr "a") route);
                 Log (mkLog LOG_DEBUG
                        "failed removing multicast route (%s,%s), does not exist."
                        [LS (inet_addr2str (mr_source route));
                         LS (inet_addr2str (mr_group route))])]) /\
  (kernel (mfc6_call sd (chr "a") route) = Some ENOENT ->
   trace (snd (kern_mroute6 sd (chr "a") route w)) =
     trace w ++ [Call (mfc6_call sd (chr "a") route);
                 Log (mkLog LOG_DEBUG
                        "failed removing IPv6 multicast route (%s,%s), does not exist."
                        [LS (inet_addr2str (mr_source route));
                         LS (inet_addr2str (mr_group route))])]).
Proof.
  split; intros Hk.
  - rewrite kern_mroute4_run, Hk.
    destruct (Z.eqb_spec sd (-1)); [lia | reflexivity].
  - rewrite kern_mroute6_run, Hk.
    destruct (Z.ltb_spec sd 0); [lia | reflexivity].
Qed.

(** ** Further properties of kern.c *)

(** [kern_join_leave] submits its request at level [IPPROTO_IPV6] exactly
    when built with IPv6 multicast host support and the group is IPv6,
    otherwise at [IPPROTO_IP]; in both API variants. *)
Theorem kern_join_leave_level cfg sd cmd mcg w :
  exists dbg c rest,
    trace (snd (kern_join_leave cfg sd cmd mcg w)) = trace w ++ Log dbg :: Call c :: rest /\
    so_proto c = (if HAVE_IPV6_MULTICAST_HOST cfg && is_inet6 (mcg_group mcg)
                  then IPPROTO_IPV6 else IPPROTO_IP).
Proof.
  destruct (kern_join_leave_shape cfg sd mcg) as (p & jop & arg & Hp & _ & _ & Hrun).
  destruct (Hrun cmd w) as [dbg Hr]. cbv zeta in Hr. rewrite Hr.
  destruct (kernel _); (eexists _, _, _; split; [reflexivity | exact Hp]).
Qed.

(** With the legacy API an IPv6 group is joined by [struct ipv6_mreq] on
    the interface index; an IPv4 group by [struct ip_mreqn] on the interface
    index when the build has it, otherwise by [struct ip_mreq] on the
    interface's IPv4 address, the index being unused. *)
Theorem kern_join_leave_legacy_key cfg (Hcfg : HAVE_STRUCT_GROUP_REQ cfg = false)
    sd cmd mcg w :
  exists dbg c rest,
    trace (snd (kern_join_leave cfg sd cmd mcg w)) = trace w ++ Log dbg :: Call c :: rest /\
    so_arg c =
      if HAVE_IPV6_MULTICAST_HOST cfg && is_inet6 (mcg_group mcg)
      then Ipv6_mreq (inet_addr6_get (mcg_group mcg)) (ifindex (mcg_iface mcg))
      else if HAVE_STRUCT_IP_MREQN cfg
      then Ip_mreqn (inet_addr_get (mcg_group mcg)) (ifindex (mcg_iface mcg))
      else Ip_mreq (inet_addr_get (mcg_group mcg)) (inaddr (mcg_iface mcg)).
Proof.
  destruct (kern_join_leave_shape cfg sd mcg) as (p & jop & arg & _ & _ & Ha & Hrun).
  specialize (Ha Hcfg).
  destruct (Hrun cmd w) as [dbg Hr]. cbv zeta in Hr. rewrite Hr.
  destruct (kernel _); (eexists _, _, _; split; [reflexivity | exact Ha]).
Qed.

(** A join ['j'] and a leave (any command other than 0 and ['j']) of the
    same request submit the same option value at the same level on the same
    socket; the leave uses the leave option matching the join option. *)
Theorem kern_join_leave_inverse cfg sd mcg cmd (H0 : cmd <> 0) (Hj : cmd <> chr "j") w w' :
  exists dj cj rj dl cl rl,
    trace (snd (kern_join_leave cfg sd (chr "j") mcg w)) = trace w ++ Log dj :: Call cj :: rj /\
    trace (snd (kern_join_leave cfg sd cmd mcg w')) = trace w' ++ Log dl :: Call cl :: rl /\
    is_join_op (so_op cj) = true /\
    is_join_op (so_op cl) = false /\
    so_op cl = leave_of (so_op cj) /\
    so_sd cl = so_sd cj /\ so_proto cl = so_proto cj /\ so_arg cl = so_arg cj.
Proof.
  destruct (kern_join_leave_shape cfg sd mcg) as (p & jop & arg & _ & Hjop & _ & Hrun).
  destruct (Hrun (chr "j") w) as [dj Hrj]. destruct (Hrun cmd w') as [dl Hrl].
  cbv zeta in Hrj, Hrl.
  assert (Ej : (effective_cmd (chr "j") =? chr "j") = true) by reflexivity.
  assert (El : (effective_cmd cmd =? chr "j") = false).
  { unfold effective_cmd. rewrite (proj2 (Z.eqb_neq _ _) H0).
    apply Z.eqb_neq. exact Hj. }
  rewrite Ej in Hrj. rewrite El in Hrl. rewrite Hrj, Hrl.
  assert (Hl : is_join_op (leave_of jop) = false)
    by (destruct jop; try discriminate Hjop; reflexivity).
  destruct (kernel (mkCall sd p jop arg)), (kernel (mkCall sd p (leave_of jop) arg));
    (eexists _, _, _, _, _, _;
     split; [reflexivity | split; [reflexivity | simpl; repeat split; assumption]]).
Qed.

(** Without a usable socket ([-1] for IPv4, any negative descriptor for
    IPv6) the cache managers log one debug line, make no kernel call, leave
    [errno] alone and return -1. *)
Theorem kern_mroute_no_socket sd (Hsd : sd < 0) cmd route active w :
  kern_mroute4 (-1) cmd route active w =
    (-1, mkWorld (trace w ++ [Log (mkLog LOG_DEBUG "No IPv4 multicast socket" [])])
                 (errno w)) /\
  kern_mroute6 sd cmd route w =
    (-1, mkWorld (trace w ++ [Log (mkLog LOG_DEBUG "No IPv6 multicast socket" [])])
                 (errno w)).
Proof.
  rewrite kern_mroute4_run, kern_mroute6_run.
  destruct (Z.ltb_spec sd 0); [split; reflexivity | lia].
Qed.

(** ADD (['a']) and DELETE (any other command) of the same route submit the
    same [struct mfcctl] (IPv4) or [struct mf6cctl] (IPv6); only the option
    differs. *)
Theorem kern_mroute_add_del_same_entry sd (Hsd : 0 <= sd) cmd (Hcmd : cmd <> chr "a")
    route active w w' :
  (exists m r1 r2,
     trace (snd (kern_mroute4 sd (chr "a") route active w)) =
       trace w ++ Call (mkCall sd IPPROTO_IP MRT_ADD_MFC m) :: r1 /\
     trace (snd (kern_mroute4 sd cmd route active w')) =
       trace w' ++ Call (mkCall sd IPPROTO_IP MRT_DEL_MFC m) :: r2) /\
  (exists m r1 r2,
     trace (snd (kern_mroute6 sd (chr "a") route w)) =
       trace w ++ Call (mkCall sd IPPROTO_IPV6 MRT6_ADD_MFC m) :: r1 /\
     trace (snd (kern_mroute6 sd cmd route w')) =
       trace w' ++ Call (mkCall sd IPPROTO_IPV6 MRT6_DEL_MFC m) :: r2).
Proof.
  rewrite !kern_mroute4_run, !kern_mroute6_run.
  destruct (Z.eqb_spec sd (-1)); [lia |].
  destruct (Z.ltb_spec sd 0); [lia |].
  unfold mfc4_call, mfc6_call.
  replace (chr "a" =? chr "a") with true by reflexivity.
  rewrite (proj2 (Z.eqb_neq _ _) Hcmd).
  split.
  - destruct (kernel (mkCall sd IPPROTO_IP MRT_ADD_MFC (mfcctl_of route))),
             (kernel (mkCall sd IPPROTO_IP MRT_DEL_MFC (mfcctl_of route)));
      (eexists _, _, _; split; reflexivity).
  - destruct (kernel (mkCall sd IPPROTO_IPV6 MRT6_ADD_MFC (mf6cctl_of route))),
             (kernel (mkCall sd IPPROTO_IPV6 MRT6_DEL_MFC (mf6cctl_of route)));
      (eexists _, _, _; split; reflexivity).
Qed.

(** [kern_mroute6] depends on the caller's TTL values only through which of
    them are zero: two routes whose TTL vectors have the same zero entries
    give the same kernel request, return value, logs and [errno]. *)
Theorem kern_mroute6_ttl_zero_pattern sd cmd src grp inb ttl1 ttl2 w
    (H : map (fun t => t =? 0) ttl1 = map (fun t => t =? 0) ttl2) :
  kern_mroute6 sd cmd (mkMroute src grp inb ttl1) w =
  kern_mroute6 sd cmd (mkMroute src grp inb ttl2) w.
Proof.
  unfold kern_mroute6, mf6cctl_of. cbn [mr_ttl mr_source mr_group mr_inbound].
  rewrite (ifset_of_zero_pattern ttl1 ttl2 H). reflexivity.
Qed.

(** The interface set [kern_mroute6] builds from a TTL vector of length [n]
    is a nonnegative number below [2^n]: no bit at or past the vector's
    end is ever set. *)
Theorem mf6cctl_ifset_bound route :
  exists o g p s,
    mf6cctl_of route = Mf6cctl o g p s /\
    0 <= s < 2 ^ Z.of_nat (List.length (mr_ttl route)).
Proof.
  unfold mf6cctl_of. eexists _, _, _, _. split; [reflexivity |].
  apply ifset_of_bound.
Qed.

(** The prefix length [mcg->len] only enters the error line of
    [kern_join_leave]: requests differing only in it give the same return
    value, the same [errno] and the same trace once error lines are set
    aside. *)
Theorem kern_join_leave_len_diagnostic_only cfg sd cmd ifc src grp l1 l2 w :
  let r1 := kern_join_leave cfg sd cmd (mkMcgroup ifc src grp l1) w in
  let r2 := kern_join_leave cfg sd cmd (mkMcgroup ifc src grp l2) w in
  fst r1 = fst r2 /\
  errno (snd r1) = errno (snd r2) /\
  filter (fun e => negb (is_error_log e)) (trace (snd r1)) =
  filter (fun e => negb (is_error_log e)) (trace (snd r2)).
Proof.
  unfold kern_join_leave. rewrite !bind_run.
  rewrite (group_req_len_irrelevant cfg sd _ ifc src grp l1 l2 w).
  set (g := group_req cfg sd _ (mkMcgroup ifc src grp l2) w).
  destruct (negb (fst g =? 0)).
  - unfold bind, get_errno, smclog, emit, ret. cbn [fst snd trace errno].
    rewrite !filter_app. split; [reflexivity | split; reflexivity].
  - split; [reflexivity | split; reflexivity].
Qed.

End Kern.

(** ** Concrete runs *)

(** A kernel accepting every request, and one rejecting every request with
    [ENOENT]. *)
Definition ex_kernel_ok (_ : sockopt_call) : option Z := None.
Definition ex_kernel_enoent (_ : sockopt_call) : option Z := Some ENOENT.

(** Text renderings; their contents do not matter here. *)
Definition ex_addr2str (_ : sockaddr) : string := "addr".
Definition ex_strerror (_ : Z) : string := "error".

Definition ex_world : world := mkWorld [] 0.

(** A route 10.0.0.1 -> 225.1.1.1 from VIF 1 with outbound TTLs [0,5,0,3]. *)
Definition ex_route : mroute :=
  mkMroute (AF_INET 167772161) (AF_INET 3774939393) 1 [0; 5; 0; 3].

(** The same route with a six-entry caller vector. *)
Definition ex_route_long : mroute :=
  mkMroute (AF_INET 167772161) (AF_INET 3774939393) 1 [0; 5; 0; 3; 7; 9].

(** The legacy ([struct ip_mreqn]) membership API. *)
Definition ex_legacy : config := mkConfig false true true.

(** An SSM request (10.0.0.2, 232.1.1.1) on ifindex 2. *)
Definition ex_ssm_group : mcgroup :=
  mkMcgroup (mkIface 2 167772161) (AF_INET 167772162) (AF_INET 3892379905) 0.

(** C1, counterexample: with the legacy API an SSM join (source 10.0.0.2,
    not the any address) is issued as the Any-Source [IP_ADD_MEMBERSHIP];
    no Source-Specific request is made. *)
Lemma kern_join_leave_legacy_ssm_counterexample :
  is_anyaddr (mcg_source ex_ssm_group) = false /\
  forall c,
    In (Call c) (trace (snd (kern_join_leave ex_kernel_ok ex_addr2str ex_strerror
                               ex_legacy 3 (chr "j") ex_ssm_group ex_world))) ->
    is_ssm_op (so_op c) = false /\ so_op c = IP_ADD_MEMBERSHIP.
Proof.
  split; [reflexivity |].
  vm_compute. intros c [H|[H|[]]]; [discriminate |].
  injection H as <-. split; reflexivity.
Qed.

Lemma kern_mroute4_ttl_copy_witness :
  3 <> -1 /\
  exists ttls rest,
    trace (snd (kern_mroute4 ex_kernel_ok ex_addr2str ex_strerror 4 3 (chr "a")
                  ex_route_long 1 ex_world)) =
      trace ex_world ++ Call (mkCall 3 IPPROTO_IP MRT_ADD_MFC
                               (Mfcctl 167772161 3774939393 1 ttls)) :: rest /\
    List.length ttls = 4%nat /\
    (forall i, (i < 4)%nat -> (i < List.length (mr_ttl ex_route_long))%nat ->
               nth_error ttls i = nth_error (mr_ttl ex_route_long) i).
Proof.
  split; [lia |].
  apply (kern_mroute4_ttl_copy ex_kernel_ok ex_addr2str ex_strerror 4 3).
  lia.
Defined.

Lemma kern_mroute6_ifset_witness :
  0 <= 3 /\
  (exists ifset rest,
     trace (snd (kern_mroute6 ex_kernel_ok ex_addr2str ex_strerror 3 (chr "a")
                   ex_route ex_world)) =
       trace ex_world ++ Call (mkCall 3 IPPROTO_IPV6 MRT6_ADD_MFC
                                (Mf6cctl 167772161 3774939393 1 ifset)) :: rest /\
     (forall i, (i < 4)%nat ->
                Z.testbit ifset (Z.of_nat i) = negb (nth i (mr_ttl ex_route) 0 =? 0)) /\
     (forall i, (4 <= i)%nat -> Z.testbit ifset (Z.of_nat i) = false)) /\
  (Z.testbit (ifset_of [0; 5; 0; 3]) 0 = false /\
   Z.testbit (ifset_of [0; 5; 0; 3]) 1 = true /\
   Z.testbit (ifset_of [0; 5; 0; 3]) 2 = false /\
   Z.testbit (ifset_of [0; 5; 0; 3]) 3 = true).
Proof.
  split; [lia |].
  apply (kern_mroute6_ifset ex_kernel_ok ex_addr2str ex_strerror 3).
  lia.
Defined.

Lemma kern_mroute_failure_diagnostics_witness :
  0 <= 3 /\
  kern_mroute4 ex_kernel_enoent ex_addr2str ex_strerror 4 3 (chr "d") ex_route 1 ex_world =
    (1, mkWorld [Call (mfc4_call 4 3 (chr "d") ex_route);
                 Log (mkLog LOG_DEBUG
                        "failed removing multicast route (%s,%s), does not exist."
                        [LS "addr"; LS "addr"])] ENOENT) /\
  kern_mroute6 ex_kernel_enoent ex_addr2str ex_strerror 3 (chr "d") ex_route ex_world =
    (1, mkWorld [Call (mfc6_call 3 (chr "d") ex_route);
                 Log (mkLog LOG_DEBUG
                        "failed removing IPv6 multicast route (%s,%s), does not exist."
                        [LS "addr"; LS "addr"])] ENOENT).
Proof.
  split; [lia |].
  destruct (kern_mroute_failure_diagnostics ex_kernel_enoent ex_addr2str ex_strerror 4
              3 ENOENT ltac:(lia) (chr "d") ex_route 1 ex_world) as [H4 H6].
  split; [apply H4 | apply H6]; reflexivity.
Defined.

(** An IPv4 ADD rejected with [ENOENT] by a kernel that accepts every other
    request, and an IPv6 ADD rejected with [ENOENT]. *)
Definition ex_kernel_v4_enoent (c : sockopt_call) : option Z :=
  match so_proto c with IPPROTO_IP => Some ENOENT | IPPROTO_IPV6 => None end.

Lemma kern_mroute_enoent_add_witness :
  0 <= 3 /\
  ex_kernel_v4_enoent (mfc4_call 4 3 (chr "a") ex_route) = Some ENOENT /\
  trace (snd (kern_mroute4 ex_kernel_v4_enoent ex_addr2str ex_strerror 4 3 (chr "a")
                ex_route 1 ex_world)) =
    [Call (mfc4_call 4 3 (chr "a") ex_route);
     Log (mkLog LOG_DEBUG "failed removing multicast route (%s,%s), does not exist."
            [LS "addr"; LS "addr"])] /\
  ex_kernel_enoent (mfc6_call 3 (chr "a") ex_route) = Some ENOENT /\
  trace (snd (kern_mroute6 ex_kernel_enoent ex_addr2str ex_strerror 3 (chr "a")
                ex_route ex_world)) =
    [Call (mfc6_call 3 (chr "a") ex_route);
     Log (mkLog LOG_DEBUG "failed removing IPv6 multicast route (%s,%s), does not exist."
            [LS "addr"; LS "addr"])].
Proof.
  split; [lia |]. split; [reflexivity |].
  split.
  { apply (proj1 (kern_mroute_enoent_add ex_kernel_v4_enoent ex_addr2str ex_strerror 4 3
                    ltac:(lia) ex_route 1 ex_world)).
    reflexivity. }
  split; [reflexivity |].
  apply (proj2 (kern_mroute_enoent_add ex_kernel_enoent ex_addr2str ex_strerror 4 3
                  ltac:(lia) ex_route 1 ex_world)).
  reflexivity.
Defined.

Lemma kern_join_leave_legacy_key_witness :
  HAVE_STRUCT_GROUP_REQ ex_legacy = false /\
  exists dbg c rest,
    trace (snd (kern_join_leave ex_kernel_ok ex_addr2str ex_strerror ex_legacy 3 (chr "j")
                  ex_ssm_group ex_world)) = trace ex_world ++ Log dbg :: Call c :: rest /\
    so_arg c = Ip_mreqn 3892379905 2.
Proof.
  split; [reflexivity |].
  apply (kern_join_leave_legacy_key ex_kernel_ok ex_addr2str ex_strerror ex_legacy).
  reflexivity.
Defined.

Lemma kern_join_leave_inverse_witness :
  chr "l" <> 0 /\ chr "l" <> chr "j" /\
  exists dj cj rj dl cl rl,
    trace (snd (kern_join_leave ex_kernel_ok ex_addr2str ex_strerror ex_legacy 3 (chr "j")
                  ex_ssm_group ex_world)) = trace ex_world ++ Log dj :: Call cj :: rj /\
    trace (snd (kern_join_leave ex_kernel_ok ex_addr2str ex_strerror ex_legacy 3 (chr "l")
                  ex_ssm_group ex_world)) = trace ex_world ++ Log dl :: Call cl :: rl /\
    is_join_op (so_op cj) = true /\
    is_join_op (so_op cl) = false /\
    so_op cl = leave_of (so_op cj) /\
    so_sd cl = so_sd cj /\ so_proto cl = so_proto cj /\ so_arg cl = so_arg cj.
Proof.
  split; [vm_compute; discriminate |]. split; [vm_compute; discriminate |].
  apply (kern_join_leave_inverse ex_kernel_ok ex_addr2str ex_strerror ex_legacy 3
           ex_ssm_group (chr "l")); vm_compute; discriminate.
Defined.

Lemma kern_mroute_no_socket_witness :
  -2 < 0 /\
  kern_mroute4 ex_kernel_ok ex_addr2str ex_strerror 4 (-1) (chr "a") ex_route 1 ex_world =
    (-1, mkWorld [Log (mkLog LOG_DEBUG "No IPv4 multicast socket" [])] 0) /\
  kern_mroute6 ex_kernel_ok ex_addr2str ex_strerror (-2) (chr "a") ex_route ex_world =
    (-1, mkWorld [Log (mkLog LOG_DEBUG "No IPv6 multicast socket" [])] 0).
Proof.
  split; [lia |].
  apply (kern_mroute_no_socket ex_kernel_ok ex_addr2str ex_strerror 4 (-2)).
  lia.
Defined.

Lemma kern_mroute_add_del_same_entry_witness :
  0 <= 3 /\ chr "d" <> chr "a" /\
  (exists m r1 r2,
     trace (snd (kern_mroute4 ex_kernel_ok ex_addr2str ex_strerror 4 3 (chr "a")
                   ex_route 1 ex_world)) =
       trace ex_world ++ Call (mkCall 3 IPPROTO_IP MRT_ADD_MFC m) :: r1 /\
     trace (snd (kern_mroute4 ex_kernel_ok ex_addr2str ex_strerror 4 3 (chr "d")
                   ex_route 1 ex_world)) =
       trace ex_world ++ Call (mkCall 3 IPPROTO_IP MRT_DEL_MFC m) :: r2) /\
  (exists m r1 r2,
     trace (snd (kern_mroute6 ex_kernel_ok ex_addr2str ex_strerror 3 (chr "a")
                   ex_route ex_world)) =
       trace ex_world ++ Call (mkCall 3 IPPROTO_IPV6 MRT6_ADD_MFC m) :: r1 /\
     trace (snd (kern_mroute6 ex_kernel_ok ex_addr2str ex_strerror 3 (chr "d")
                   ex_route ex_world)) =
       trace ex_world ++ Call (mkCall 3 IPPROTO_IPV6 MRT6_DEL_MFC m) :: r2).
Proof.
  split; [lia |]. split; [vm_compute; discriminate |].
  apply (kern_mroute_add_del_same_entry ex_kernel_ok ex_addr2str ex_strerror 4 3);
    [lia | vm_compute; discriminate].
Defined.

Lemma kern_mroute6_ttl_zero_pattern_witness :
  map (fun t => t =? 0) [0; 5; 0; 3] = map (fun t => t =? 0) [0; 1; 0; 255] /\
  kern_mroute6 ex_kernel_ok ex_addr2str ex_strerror 3 (chr "a")
    (mkMroute (AF_INET6 1) (AF_INET6 2) 1 [0; 5; 0; 3]) ex_world =
  kern_mroute6 ex_kernel_ok ex_addr2str ex_strerror 3 (chr "a")
    (mkMroute (AF_INET6 1) (AF_INET6 2) 1 [0; 1; 0; 255]) ex_world.
Proof.
  split; [reflexivity |].
  apply (kern_mroute6_ttl_zero_pattern ex_kernel_ok ex_addr2str ex_strerror).
  reflexivity.
Defined.
